(** * dawn.py: the CIFAR10 DAWNBench example of GRACE, distributed variant

    A shallow embedding of [examples/dist/CIFAR10-dawndist/dawn.py]:
    the declarative network description ([conv_bn], [residual],
    [basic_net], [net], [losses]), the TSV logger and the reference
    flow [main].

    Conventions.
    - Python dicts keep insertion order, and the order of a block's
      entries is what the graph builder threads; a dict is therefore an
      association list with unique keys, updated in place or extended at
      the end ([dict_set]).
    - Python floats are read as exact rationals ([Q]); integers as [Z].
    - A Python exception is a [Raise] in the [result] monad.
    - Modules of torch and of the repository's [core]/[torch_backend]
      ([nn.Conv2d], [batch_norm], [Identity], ...) are kept as
      constructor terms recording their constructor arguments. *)

From Stdlib Require Import List String Ascii ZArith QArith Qround Qabs Bool Lia Lqa.
From Stdlib Require Import Numbers.DecimalString.
Import ListNotations.

Open Scope string_scope.
Open Scope Z_scope.
Open Scope list_scope.

(** ** Exceptions *)

Inductive exn : Type :=
| KeyError (key : string)
| TypeError (what : string)
| ValueError (what : string)
| UnboundLocalError (name : string)
| ZeroDivisionError.

Inductive result (A : Type) : Type :=
| Ok (a : A)
| Raise (e : exn).
Arguments Ok {A} a.
Arguments Raise {A} e.

Definition bind {A B : Type} (r : result A) (k : A -> result B) : result B :=
  match r with
  | Ok a => k a
  | Raise e => Raise e
  end.

Notation "x <- r ;; k" := (bind r (fun x => k))
  (at level 61, r at next level, right associativity).

(** ** Python values that travel through keyword arguments and dicts *)

Inductive pyval : Type :=
| PNone
| PBool (b : bool)
| PInt (z : Z)
| PFloat (q : Q)
| PStr (s : string).

(** ** Insertion-ordered dicts with string keys *)

Definition dict (V : Type) : Type := list (string * V).

Fixpoint dict_get {V : Type} (d : dict V) (k : string) : option V :=
  match d with
  | [] => None
  | (k', v) :: d' => if String.eqb k k' then Some v else dict_get d' k
  end.

(** [d[k]]: raises [KeyError] on a missing key. *)
Definition getitem {V : Type} (d : dict V) (k : string) : result V :=
  match dict_get d k with
  | Some v => Ok v
  | None => Raise (KeyError k)
  end.

(** [d[k] = v]: an existing key keeps its position, a new key goes last. *)
Fixpoint dict_set {V : Type} (d : dict V) (k : string) (v : V) : dict V :=
  match d with
  | [] => [(k, v)]
  | (k', v') :: d' =>
      if String.eqb k k' then (k', v) :: d' else (k', v') :: dict_set d' k v
  end.

Fixpoint dict_del {V : Type} (d : dict V) (k : string) : dict V :=
  match d with
  | [] => []
  | (k', v') :: d' =>
      if String.eqb k k' then d' else (k', v') :: dict_del d' k
  end.

Definition keys {V : Type} (d : dict V) : list string := map fst d.

Definition has_key {V : Type} (d : dict V) (k : string) : bool :=
  match dict_get d k with Some _ => true | None => false end.

(** Keyword arguments collected by [**kw]. *)
Definition kwargs : Type := dict pyval.

(** ** Network description *)

(** Operation descriptors: the modules the description instantiates. *)
Inductive module_ : Type :=
| Conv2d (c_in c_out : Z) (kernel_size stride padding : Z) (bias : bool)
| batch_norm (num_channels : Z) (bn_weight_init : pyval) (kw : kwargs)
| ReLU (inplace : bool)
| Identity
| Add
| MaxPool2d (kernel_size : Z)
| Flatten
| Linear (in_features out_features : Z) (bias : bool)
| Mul (weight : Q)
| CrossEntropyLoss (reduction : string)
| Correct.

(** A symbolic input path: [rel_path] of some parts is relative to the block
    that holds the entry, a plain tuple is taken from the root. *)
Inductive path : Type :=
| RelativePath (parts : list string)
| AbsolutePath (parts : list string).

Definition rel_path (parts : list string) : path := RelativePath parts.

(** An entry of a block: a module fed by its predecessor, a module with
    explicit input paths (the tuple [(module, [paths])]), or a nested
    block. *)
#[local] Set Warnings "-register-all".
Inductive spec : Type :=
| Op (m : module_)
| Edge (m : module_) (inputs : list path)
| Block (entries : dict spec).

(** [conv_bn(c_in, c_out, bn_weight_init=1.0, **kw)] *)
Definition conv_bn (c_in c_out : Z) (bn_weight_init : pyval) (kw : kwargs)
  : dict spec :=
  [ ("conv", Op (Conv2d c_in c_out 3 1 1 false));
    ("bn", Op (batch_norm c_out bn_weight_init kw));
    ("relu", Op (ReLU true)) ].

(** The call [conv_bn(c_in, c_out, **kw)]: a [bn_weight_init] among the
    keywords binds the named parameter, whose default is [1.0]; a keyword
    naming a positional parameter is a [TypeError]. *)
Definition call_conv_bn (c_in c_out : Z) (kw : kwargs) : result (dict spec) :=
  if has_key kw "c_in" || has_key kw "c_out"
  then Raise (TypeError "conv_bn() got multiple values for argument")
  else
    match dict_get kw "bn_weight_init" with
    | Some w => Ok (conv_bn c_in c_out w (dict_del kw "bn_weight_init"))
    | None => Ok (conv_bn c_in c_out (PFloat 1) kw)
    end.

(** [residual(c, **kw)] *)
Definition residual (c : Z) (kw : kwargs) : result (dict spec) :=
  res1 <- call_conv_bn c c kw ;;
  res2 <- call_conv_bn c c kw ;;
  Ok [ ("in", Op Identity);
       ("res1", Block res1);
       ("res2", Block res2);
       ("add", Edge Add [rel_path ["in"]; rel_path ["res2"; "relu"]]) ].

(** The call [residual(channels[layer], **kw)]. *)
Definition call_residual (c : Z) (kw : kwargs) : result (dict spec) :=
  if has_key kw "c"
  then Raise (TypeError "residual() got multiple values for argument")
  else residual c kw.

(** [dict(conv_bn(...), pool=pool)] *)
Definition with_pool (d : dict spec) (pool : module_) : dict spec :=
  dict_set d "pool" (Op pool).

(** [basic_net(channels, weight, pool, **kw)] *)
Definition basic_net (channels : dict Z) (weight : Q) (pool : module_)
  (kw : kwargs) : result (dict spec) :=
  c_prep <- getitem channels "prep" ;;
  prep <- call_conv_bn 3 c_prep kw ;;
  c_prep' <- getitem channels "prep" ;;
  c_layer1 <- getitem channels "layer1" ;;
  layer1 <- call_conv_bn c_prep' c_layer1 kw ;;
  c_layer1' <- getitem channels "layer1" ;;
  c_layer2 <- getitem channels "layer2" ;;
  layer2 <- call_conv_bn c_layer1' c_layer2 kw ;;
  c_layer2' <- getitem channels "layer2" ;;
  c_layer3 <- getitem channels "layer3" ;;
  layer3 <- call_conv_bn c_layer2' c_layer3 kw ;;
  c_layer3' <- getitem channels "layer3" ;;
  Ok [ ("prep", Block prep);
       ("layer1", Block (with_pool layer1 pool));
       ("layer2", Block (with_pool layer2 pool));
       ("layer3", Block (with_pool layer3 pool));
       ("pool", Op (MaxPool2d 4));
       ("flatten", Op Flatten);
       ("linear", Op (Linear c_layer3' 10 false));
       ("classifier", Op (Mul weight)) ].

(** [n[layer][key] = v]: [n[layer]] must exist and be a dict. *)
Definition setitem_in (n : dict spec) (layer key : string) (v : spec)
  : result (dict spec) :=
  sub <- getitem n layer ;;
  match sub with
  | Block entries => Ok (dict_set n layer (Block (dict_set entries key v)))
  | _ => Raise (TypeError "object does not support item assignment")
  end.

(** [for layer in res_layers: n[layer]['residual'] = residual(channels[layer], **kw)] *)
Fixpoint attach_residuals (channels : dict Z) (kw : kwargs)
  (res_layers : list string) (n : dict spec) : result (dict spec) :=
  match res_layers with
  | [] => Ok n
  | layer :: rest =>
      c <- getitem channels layer ;;
      r <- call_residual c kw ;;
      n' <- setitem_in n layer "residual" (Block r) ;;
      attach_residuals channels kw rest n'
  end.

(** [for layer in extra_layers: n[layer]['extra'] = conv_bn(channels[layer], channels[layer], **kw)] *)
Fixpoint attach_extras (channels : dict Z) (kw : kwargs)
  (extra_layers : list string) (n : dict spec) : result (dict spec) :=
  match extra_layers with
  | [] => Ok n
  | layer :: rest =>
      c <- getitem channels layer ;;
      c' <- getitem channels layer ;;
      e <- call_conv_bn c c' kw ;;
      n' <- setitem_in n layer "extra" (Block e) ;;
      attach_extras channels kw rest n'
  end.

Definition default_channels : dict Z :=
  [("prep", 64); ("layer1", 128); ("layer2", 256); ("layer3", 512)].

(** [channels or {...}]: [None] and the empty dict are falsy. *)
Definition channels_or_default (channels : option (dict Z)) : dict Z :=
  match channels with
  | None | Some [] => default_channels
  | Some c => c
  end.

(** [net(channels=None, weight=0.125, pool=nn.MaxPool2d(2), extra_layers=(),
        res_layers=('layer1', 'layer3'), **kw)] *)
Definition net (channels : option (dict Z)) (weight : Q) (pool : module_)
  (extra_layers res_layers : list string) (kw : kwargs) : result (dict spec) :=
  let channels := channels_or_default channels in
  n <- basic_net channels weight pool kw ;;
  n <- attach_residuals channels kw res_layers n ;;
  n <- attach_extras channels kw extra_layers n ;;
  Ok n.

(** [net()] *)
Definition net_default : result (dict spec) :=
  net None (1 # 8) (MaxPool2d 2) [] ["layer1"; "layer3"] [].

(** [losses] *)
Definition losses : dict spec :=
  [ ("loss", Edge (CrossEntropyLoss "none")
               [AbsolutePath ["classifier"]; AbsolutePath ["target"]]);
    ("correct", Edge Correct
               [AbsolutePath ["classifier"]; AbsolutePath ["target"]]) ].

(** Modelled from the spec: [union] belongs to the repository's [core]
    module, which is not among the sources; the spec has the network body
    merged with the loss heads into one block specification.  The merge
    inserts the items of each dict in turn, a later value replacing an
    earlier one under the same key. *)
Definition union {V : Type} (dicts : list (dict V)) : dict V :=
  fold_left
    (fun acc d => fold_left (fun acc kv => dict_set acc (fst kv) (snd kv)) d acc)
    dicts [].

(** The argument of [Network(...)] in [main]: [union(net(), losses)]. *)
Definition model_spec : result (dict spec) :=
  n <- net_default ;;
  Ok (union [n; losses]).

(** Nested lookup [n[k1][k2]...]: descends through blocks. *)
Fixpoint entry_at (n : dict spec) (p : list string) : option spec :=
  match p with
  | [] => Some (Block n)
  | k :: p' =>
      match dict_get n k with
      | None => None
      | Some v =>
          match p', v with
          | [], _ => Some v
          | _ :: _, Block sub => entry_at sub p'
          | _ :: _, _ => None
          end
      end
  end.

(** ** Graph builder *)

(** A built node: its absolute path, its operation and the absolute paths
    of its predecessors. *)
Record Node : Type := mkNode {
  node_path : list string;
  node_op : module_;
  node_inputs : list (list string)
}.

(** Builder state: the nodes built so far, in build order, and the path
    whose output feeds the next module that names no input. *)
Record bstate : Type := mkBState {
  built : list Node;
  prev : list string
}.

Fixpoint path_eqb (a b : list string) : bool :=
  match a, b with
  | [], [] => true
  | x :: a', y :: b' => String.eqb x y && path_eqb a' b'
  | _, _ => false
  end.

Definition is_built (nodes : list Node) (p : list string) : bool :=
  existsb (fun nd => path_eqb (node_path nd) p) nodes.

(** A relative path is read from the enclosing block, a plain tuple from
    the root. *)
Definition resolve (pfx : list string) (p : path) : list string :=
  match p with
  | RelativePath parts => pfx ++ parts
  | AbsolutePath parts => parts
  end.

Section Builder.

(** The designated inputs of the graph. *)
Variable roots : list (list string).

Definition known (nodes : list Node) (p : list string) : bool :=
  is_built nodes p || existsb (path_eqb p) roots.

Fixpoint resolve_all (pfx : list string) (nodes : list Node)
  (inputs : list path) : result (list (list string)) :=
  match inputs with
  | [] => Ok []
  | i :: rest =>
      let p := resolve pfx i in
      if known nodes p
      then ps <- resolve_all pfx nodes rest ;; Ok (p :: ps)
      else Raise (KeyError "unresolved path")
  end.

Definition add_node (p : list string) (m : module_)
  (ins : list (list string)) (st : bstate) : result bstate :=
  if is_built (built st) p
  then Raise (ValueError "duplicate key")
  else Ok (mkBState (built st ++ [mkNode p m ins]) p).

(** Modelled from the spec: the graph builder belongs to [core], which
    is not among the sources.  A depth-first walk in declaration order
    gives every entry the absolute path of its block joined with its
    key; a nested block is walked in place; a module without explicit
    inputs is fed by the entry just before it, the first one of a block
    by the block's own input; explicit input paths must name nodes
    already built (or designated inputs), else the build fails. *)
Fixpoint build_entry (pfx : list string) (k : string) (v : spec)
  (st : bstate) {struct v} : result bstate :=
  match v with
  | Op m => add_node (pfx ++ [k]) m [prev st] st
  | Edge m inputs =>
      ins <- resolve_all pfx (built st) inputs ;;
      add_node (pfx ++ [k]) m ins st
  | Block entries =>
      (fix walk (es : dict spec) (st : bstate) : result bstate :=
         match es with
         | [] => Ok st
         | (k', v') :: es' =>
             st' <- build_entry (pfx ++ [k]) k' v' st ;;
             walk es' st'
         end) entries st
  end.

Fixpoint build_block (pfx : list string) (es : dict spec) (st : bstate)
  : result bstate :=
  match es with
  | [] => Ok st
  | (k, v) :: es' =>
      st' <- build_entry pfx k v st ;;
      build_block pfx es' st'
  end.

End Builder.

(** [build(spec)]: the designated inputs are [data] and [target]; the
    first module is fed by [data]. *)
Definition build_graph (es : dict spec) : result (list Node) :=
  st <- build_block [["data"]; ["target"]] [] es (mkBState [] ["data"]) ;;
  Ok (built st).

Definition node_at (nodes : list Node) (p : list string) : option Node :=
  find (fun nd => path_eqb (node_path nd) p) nodes.

(** ** Learning-rate schedule *)

Open Scope Q_scope.

(** [a / b] on numbers: true division, which raises on a zero divisor. *)
Definition truediv (a b : Q) : result Q :=
  if Qeq_bool b 0 then Raise ZeroDivisionError else Ok (a / b).

(** The line through [(x0, y0)] and [(x1, y1)], at [x]. *)
Definition line_through (x0 y0 x1 y1 x : Q) : Q :=
  y0 + (x - x0) * ((y1 - y0) / (x1 - x0)).

(** Interpolation from the control point [(x0, y0)] on, for [x0 < x]. *)
Fixpoint interp_from (x0 y0 : Q) (pts : list (Q * Q)) (x : Q) : Q :=
  match pts with
  | [] => y0
  | (x1, y1) :: rest =>
      if Qle_bool x x1 then line_through x0 y0 x1 y1 x
      else interp_from x1 y1 rest x
  end.

(** Modelled from the spec: [PiecewiseLinear] belongs to [core], which is
    not among the sources.  The schedule is the piecewise-linear function
    through its control points [(knots[i], vals[i])]; before the first
    knot and after the last one it keeps the value of that knot.  Without
    control points, or with knots and values of different lengths, there
    is no curve. *)
Definition PiecewiseLinear (knots vals : list Q) (t : Q) : result Q :=
  if negb (Nat.eqb (List.length knots) (List.length vals))
  then Raise (ValueError "knots and vals differ in length")
  else
    match combine knots vals with
    | [] => Raise (ValueError "no control point")
    | (x0, y0) :: rest =>
        if Qle_bool t x0 then Ok y0 else Ok (interp_from x0 y0 rest t)
    end.

(** Locals of [main]: [epochs = 24], [batch_size = 512],
    [lr_schedule = PiecewiseLinear([0, 5, epochs], [0, 0.4, 0])]. *)
Definition epochs : Z := 24.
Definition batch_size : Z := 512.
Definition lr_schedule : Q -> result Q :=
  PiecewiseLinear [0; 5; inject_Z epochs] [0; 2 # 5; 0].

(** The argument of the schedule: [step / len(train_batches)]. *)
Definition progress (len_train_batches step : Z) : result Q :=
  truediv (inject_Z step) (inject_Z len_train_batches).

(** [lr = lambda step: lr_schedule(step / len(train_batches)) / batch_size] *)
Definition lr (len_train_batches step : Z) : result Q :=
  t <- progress len_train_batches step ;;
  v <- lr_schedule t ;;
  truediv v (inject_Z batch_size).

(** The curve of the reference configuration written out: the segments
    from (0, 0) to (5, 0.4) and from (5, 0.4) to (24, 0). *)
Definition reference_curve (x : Q) : Q :=
  if Qle_bool x 5 then (2 # 25) * x else (2 # 5) * (24 - x) / 19.

Close Scope Q_scope.

(** ** Command line *)

(** The namespace returned by [parser.parse_args()]. *)
Record Args : Type := mkArgs {
  data_dir : string;
  log_dir : string;
  master_address : string;
  rank : Z;
  world_size : Z;
  compression_method : string;
  communication_method : string;
  clipping : bool;
  efsgdlr : Q;
  momentum : Q;
  memory : bool;
  backend : string;
  compress_ratio : Q;
  threshold : Q;
  qstates : Z
}.

(** The defaults of the parser. *)
Definition default_args : Args :=
  {| data_dir := "./data";
     log_dir := ".";
     master_address := "127.0.0.1";
     rank := 0;
     world_size := 2;
     compression_method := "none";
     communication_method := "allreduce";
     clipping := false;
     efsgdlr := 1 # 10;
     momentum := 9 # 10;
     memory := false;
     backend := "nccl";
     compress_ratio := 3 # 10;
     threshold := 1 # 100;
     qstates := 256 |}.

(** ** The reference flow *)

(** [SGD(trainable_params(model), lr=lr, momentum=0.9,
         weight_decay=5e-4 * batch_size, nesterov=True)]: the keyword
    arguments; the parameters are those of the model. *)
Record SGD : Type := mkSGD {
  sgd_lr : Z -> result Q;
  sgd_momentum : Q;
  sgd_weight_decay : Q;
  sgd_nesterov : bool
}.

Section Main.

(** The classes and the helper of [grace_dl] and the data pipeline are
    outside the sources: whatever they are, [main] only passes their
    values on. *)
Variables Grace Compressor Memory Dataset : Type.
Variable Allgather : Compressor -> Memory -> Z -> Grace.
Variable TopKCompressor : Q -> Compressor.
Variable ResidualMemory : Memory.
Variable grace_from_params : dict pyval -> Grace.
Variable cifar10 : string -> Dataset.
(** [len(train_batches)]: fixed by the training set, the batch size and
    [drop_last]. *)
Variable len_train_batches : Dataset -> Z -> Z.

(** The arguments of the call of [train] that [main] computes itself.
    [train_dataset] stands for the two batch iterators, which are built
    from the dataset; the loggers and the timer are objects of [core]. *)
Record TrainCall : Type := mkTrainCall {
  train_model : dict spec;
  train_opt : SGD;
  train_dataset : Dataset;
  train_epochs : Z;
  train_master_address : string;
  train_rank : Z;
  train_grc : Grace;
  train_test_time_in_total : bool;
  train_backend : string
}.

(** The local variables of [main] that the flow binds more than once or
    updates in place. *)
Record Locals : Type := mkLocals {
  grc : option Grace;
  params : option (dict pyval)
}.

Definition set_grc (g : Grace) (l : Locals) : Locals :=
  mkLocals (Some g) (params l).

Definition set_params (p : dict pyval) (l : Locals) : Locals :=
  mkLocals (grc l) (Some p).

Definition get_grc (l : Locals) : result Grace :=
  match grc l with
  | Some g => Ok g
  | None => Raise (UnboundLocalError "grc")
  end.

Definition get_params (l : Locals) : result (dict pyval) :=
  match params l with
  | Some p => Ok p
  | None => Raise (UnboundLocalError "params")
  end.

(** [grc = Allgather(TopKCompressor(0.3), ResidualMemory(), args.world_size)] *)
Definition main_first_grc (args : Args) (l : Locals) : Locals :=
  set_grc (Allgather (TopKCompressor (3 # 10)) ResidualMemory
             (world_size args)) l.

(** [params = {'compressor': 'none', 'memory': 'none', 'communicator': 'allreduce'}]
    [params['world_size'] = args.world_size]
    [grc = grace_from_params(params)] *)
Definition main_second_grc (args : Args) (l : Locals) : result Locals :=
  let l := set_params [ ("compressor", PStr "none");
                        ("memory", PStr "none");
                        ("communicator", PStr "allreduce") ] l in
  p <- get_params l ;;
  let l := set_params (dict_set p "world_size" (PInt (world_size args))) l in
  p <- get_params l ;;
  Ok (set_grc (grace_from_params p) l).

(** [main()], up to the call of [train].  The prints, the warm-up, the
    timer and the preprocessing of the data compute nothing that reaches
    the arguments kept in [TrainCall]. *)
Definition main (args : Args) : result TrainCall :=
  let dataset := cifar10 (data_dir args) in
  let epochs := epochs in
  let batch_size := batch_size in
  model <- model_spec ;;
  let lr := lr (len_train_batches dataset batch_size) in
  let opt := mkSGD lr (9 # 10) ((5 # 10000) * inject_Z batch_size) true in
  let l := mkLocals None None in
  let l := main_first_grc args l in
  l <- main_second_grc args l ;;
  g <- get_grc l ;;
  Ok (mkTrainCall model opt dataset epochs (master_address args)
        (rank args) g false (backend args)).

End Main.

Arguments main {Grace Compressor Memory Dataset}.
Arguments main_first_grc {Grace Compressor Memory}.
Arguments main_second_grc {Grace}.
Arguments grc {Grace}.
Arguments params {Grace}.
Arguments mkLocals {Grace}.
Arguments train_grc {Grace Dataset}.
Arguments train_opt {Grace Dataset}.
Arguments train_epochs {Grace Dataset}.
Arguments train_model {Grace Dataset}.

(** The dict handed to [grace_from_params]. *)
Definition hardcoded_params (ws : Z) : dict pyval :=
  [ ("compressor", PStr "none");
    ("memory", PStr "none");
    ("communicator", PStr "allreduce");
    ("world_size", PInt ws) ].

(** A command line that sets every compression flag away from its default. *)
Definition flags_changed : Args :=
  {| data_dir := "./data";
     log_dir := ".";
     master_address := "127.0.0.1";
     rank := 0;
     world_size := 2;
     compression_method := "topk";
     communication_method := "allgather";
     clipping := true;
     efsgdlr := 1 # 2;
     momentum := 0;
     memory := true;
     backend := "nccl";
     compress_ratio := 1 # 100;
     threshold := 1 # 2;
     qstates := 4 |}.

(** ** TSV logger *)

Definition tab : ascii := "009"%char.
Definition newline : ascii := "010"%char.

(** [str] of an integer. *)
Definition string_of_Z (z : Z) : string :=
  NilZero.string_of_int (Z.to_int z).

Fixpoint zeros (n : nat) : string :=
  match n with
  | O => ""
  | S n' => String "0" (zeros n')
  end.

(** Left padding with zeros up to [width] characters. *)
Definition zfill (width : nat) (s : string) : string :=
  (zeros (width - String.length s) ++ s)%string.

(** Rounding to the nearest integer, ties to even. *)
Definition round_half_even (q : Q) : Z :=
  let f := Qfloor q in
  match Qcompare (q - inject_Z f) (1 # 2) with
  | Lt => f
  | Gt => f + 1
  | Eq => if Z.even f then f else f + 1
  end.

(** The format [.<prec>f] of a number: sign, integer part and [prec]
    decimals, the value rounded at the last decimal. *)
Definition format_f (prec : nat) (q : Q) : string :=
  let scale := 10 ^ Z.of_nat prec in
  let n := round_half_even (Qabs q * inject_Z scale) in
  let sign := match Qcompare q 0 with Lt => "-" | _ => "" end in
  let decimals :=
    match prec with
    | O => ""
    | S _ => String "." (zfill prec (string_of_Z (n mod scale)))
    end in
  (sign ++ string_of_Z (n / scale) ++ decimals)%string.

Definition as_number (v : pyval) : option Q :=
  match v with
  | PBool b => Some (if b then 1%Q else 0%Q)
  | PInt z => Some (inject_Z z)
  | PFloat q => Some q
  | PNone | PStr _ => None
  end.

(** [a / b] on values. *)
Definition py_truediv (a b : pyval) : result pyval :=
  match as_number a, as_number b with
  | Some x, Some y => q <- truediv x y ;; Ok (PFloat q)
  | _, _ => Raise (TypeError "unsupported operand type(s) for /")
  end.

Fixpoint repeat_string (s : string) (n : nat) : string :=
  match n with
  | O => ""
  | S n' => (s ++ repeat_string s n')%string
  end.

(** [a * n] for an integer literal [n]. *)
Definition py_mul_int (a : pyval) (n : Z) : result pyval :=
  match a with
  | PNone => Raise (TypeError "unsupported operand type(s) for *")
  | PBool b => Ok (PInt ((if b then 1 else 0) * n))
  | PInt z => Ok (PInt (z * n))
  | PFloat q => Ok (PFloat (q * inject_Z n))
  | PStr s => Ok (PStr (repeat_string s (Z.to_nat n)))
  end.

(** [f'{v:.<prec>f}'] *)
Definition py_format_f (prec : nat) (v : pyval) : result string :=
  match as_number v with
  | Some q => Ok (format_f prec q)
  | None =>
      match v with
      | PStr _ => Raise (ValueError "Unknown format code 'f' for str")
      | _ => Raise (TypeError "unsupported format string")
      end
  end.

Section TSV.

(** [str] of a float, the shortest decimal that reads back as the same
    float, is not a function of the rational value. *)
Variable float_repr : Q -> string.

(** [f'{v}'] *)
Definition py_format (v : pyval) : string :=
  match v with
  | PNone => "None"
  | PBool true => "True"
  | PBool false => "False"
  | PInt z => string_of_Z z
  | PFloat q => float_repr q
  | PStr s => s
  end.

(** A [TSVLogger] is its list [log]. *)
Definition TSVLogger : Type := list string.

(** [__init__] *)
Definition TSVLogger_init : TSVLogger :=
  [ ("epoch" ++ String tab "hours" ++ String tab "top1Accuracy")%string ].

(** The line [f'{epoch}\t{hours:.8f}\t{acc:.2f}'] *)
Definition tsv_line (epoch hours acc : pyval) : result string :=
  s_hours <- py_format_f 8 hours ;;
  s_acc <- py_format_f 2 acc ;;
  Ok (py_format epoch ++ String tab s_hours ++ String tab s_acc)%string.

(** [append(self, output)] *)
Definition TSVLogger_append (log : TSVLogger) (output : dict pyval)
  : result TSVLogger :=
  epoch <- getitem output "epoch" ;;
  total_time <- getitem output "total time" ;;
  hours <- py_truediv total_time (PInt 3600) ;;
  test_acc <- getitem output "test acc" ;;
  acc <- py_mul_int test_acc 100 ;;
  line <- tsv_line epoch hours acc ;;
  Ok (log ++ [line]).

(** [__str__] *)
Definition TSVLogger_str (log : TSVLogger) : string :=
  String.concat (String newline "") log.

End TSV.

(** The fields of a line: Python's [line.split('\t')]. *)
Fixpoint split_tab (s : string) : list string :=
  match s with
  | EmptyString => [EmptyString]
  | String c s' =>
      if Ascii.eqb c tab then EmptyString :: split_tab s'
      else
        match split_tab s' with
        | field :: fields => String c field :: fields
        | [] => [String c EmptyString]
        end
  end.


(** ** Closed forms of the network description *)

Definition mem (l : string) (ls : list string) : bool :=
  existsb (String.eqb l) ls.

(** The layers of the network that are dicts, in order. *)
Definition layer_names : list string := ["prep"; "layer1"; "layer2"; "layer3"].

(** Keyword arguments that name no positional parameter of [conv_bn] or
    [residual]. *)
Definition kw_ok (kw : kwargs) : bool :=
  negb (has_key kw "c") && negb (has_key kw "c_in")
  && negb (has_key kw "c_out").

(** What [conv_bn(c_in, c_out, **kw)] returns when the call binds. *)
Definition conv_bn_kw (c_in c_out : Z) (kw : kwargs) : dict spec :=
  match dict_get kw "bn_weight_init" with
  | Some w => conv_bn c_in c_out w (dict_del kw "bn_weight_init")
  | None => conv_bn c_in c_out (PFloat 1) kw
  end.

(** What [residual(c, **kw)] returns when the calls bind. *)
Definition residual_kw (c : Z) (kw : kwargs) : dict spec :=
  [ ("in", Op Identity);
    ("res1", Block (conv_bn_kw c c kw));
    ("res2", Block (conv_bn_kw c c kw));
    ("add", Edge Add [rel_path ["in"]; rel_path ["res2"; "relu"]]) ].

(** A layer: its base entries, then [residual] and then [extra], each on
    [c] channels, when the layer has them. *)
Definition layer_entries (base : dict spec) (c : Z) (kw : kwargs)
  (has_residual has_extra : bool) : dict spec :=
  base
  ++ (if has_residual then [("residual", Block (residual_kw c kw))] else [])
  ++ (if has_extra then [("extra", Block (conv_bn_kw c c kw))] else []).

(** The network on the widths [c0] (prep) to [c3] (layer3) in which the
    layers selected by [res] have a residual block and the layers
    selected by [extra] an extra block. *)
Definition net_closed (c0 c1 c2 c3 : Z) (weight : Q) (pool : module_)
  (kw : kwargs) (res extra : string -> bool) : dict spec :=
  [ ("prep", Block (layer_entries (conv_bn_kw 3 c0 kw) c0 kw
                      (res "prep") (extra "prep")));
    ("layer1", Block (layer_entries
                        (conv_bn_kw c0 c1 kw ++ [("pool", Op pool)]) c1 kw
                        (res "layer1") (extra "layer1")));
    ("layer2", Block (layer_entries
                        (conv_bn_kw c1 c2 kw ++ [("pool", Op pool)]) c2 kw
                        (res "layer2") (extra "layer2")));
    ("layer3", Block (layer_entries
                        (conv_bn_kw c2 c3 kw ++ [("pool", Op pool)]) c3 kw
                        (res "layer3") (extra "layer3")));
    ("pool", Op (MaxPool2d 4));
    ("flatten", Op Flatten);
    ("linear", Op (Linear c3 10 false));
    ("classifier", Op (Mul weight)) ].

(** The first of the four widths that [channels] lacks. *)
Definition first_missing (channels : dict Z) : option string :=
  find (fun k => negb (has_key channels k)) layer_names.

(** The exception of [n[layer]['residual'] = ...] for a [layer] that is
    not one of the four dict layers: the width is looked up first, then
    the entry of the network, which is a module or is missing. *)
Definition bad_layer_error (channels : dict Z) (layer : string) : exn :=
  match dict_get channels layer with
  | None => KeyError layer
  | Some _ =>
      if mem layer ["pool"; "flatten"; "linear"; "classifier"]
      then TypeError "object does not support item assignment"
      else KeyError layer
  end.

(** Widths and keyword arguments used to exercise the properties. *)
Definition narrow_channels : dict Z :=
  [("prep", 16); ("layer1", 32); ("layer2", 64); ("layer3", 128); ("pool", 4)].

Definition half_init : kwargs := [("bn_weight_init", PFloat (1 # 2))].

(** ** The logger over a run *)

(** [s.split(sep)] for a one-character separator. *)
Fixpoint split_on (sep : ascii) (s : string) : list string :=
  match s with
  | EmptyString => [EmptyString]
  | String c s' =>
      if Ascii.eqb c sep then EmptyString :: split_on sep s'
      else
        match split_on sep s' with
        | field :: fields => String c field :: fields
        | [] => [String c EmptyString]
        end
  end.

(** The character [sep] does not occur in [s]. *)
Fixpoint free_of (sep : ascii) (s : string) : bool :=
  match s with
  | EmptyString => true
  | String c s' => negb (Ascii.eqb c sep) && free_of sep s'
  end.

(** [append] for each record in turn, as the training loop calls it once
    per epoch. *)
Fixpoint TSVLogger_append_all (float_repr : Q -> string) (log : list string)
  (outputs : list (dict pyval)) : result (list string) :=
  match outputs with
  | [] => Ok log
  | output :: rest =>
      log' <- TSVLogger_append float_repr log output ;;
      TSVLogger_append_all float_repr log' rest
  end.

(** The record has an integer under [epoch]. *)
Definition int_epoch (output : dict pyval) : bool :=
  match dict_get output "epoch" with
  | Some (PInt _) => true
  | _ => false
  end.

(** A line with exactly three tab-separated fields and no line break. *)
Definition tsv_row (line : string) : bool :=
  Nat.eqb (List.length (split_on tab line)) 3 && free_of newline line.

(** Two records as the training loop produces them. *)
Definition two_epochs : list (dict pyval) :=
  [ [ ("epoch", PInt 1); ("total time", PFloat (301 # 10));
      ("test acc", PFloat (41 # 100)) ];
    [ ("epoch", PInt 2); ("total time", PInt 60);
      ("test acc", PBool true) ] ].

(** * Properties *)

(** ** Facts about paths and the builder *)

Lemma path_eqb_refl (p : list string) : path_eqb p p = true.
Proof.
  induction p as [|x p IH]; simpl; [reflexivity|].
  now rewrite String.eqb_refl, IH.
Qed.

Lemma path_eqb_app_l (p a b : list string) :
  path_eqb (p ++ a) (p ++ b) = path_eqb a b.
Proof.
  induction p as [|x p IH]; simpl; [reflexivity|].
  now rewrite String.eqb_refl, IH.
Qed.

Lemma path_eqb_app_nil (p a : list string) :
  path_eqb (p ++ a) p = path_eqb a [].
Proof.
  rewrite <- (app_nil_r p) at 2. apply path_eqb_app_l.
Qed.

(** A nested block is walked in place, under its own path. *)
Lemma build_entry_block roots pfx k es st :
  build_entry roots pfx k (Block es) st = build_block roots (pfx ++ [k]) es st.
Proof.
  revert st. induction es as [|[k' v'] es IH]; intros st; [reflexivity|].
  simpl. destruct (build_entry roots (pfx ++ [k]) k' v' st) as [st'|e]; simpl.
  - apply IH.
  - reflexivity.
Qed.

(** One step of the builder on a symbolic prefix: unfold, bring every path
    to the shape [pfx ++ parts], and decide the path comparisons. *)
Ltac build_steps :=
  repeat progress
    (unfold add_node, known, is_built, rel_path, resolve;
     cbn [build_block build_entry bind resolve_all existsb built prev
          node_path conv_bn];
     rewrite ?build_entry_block, <- ?app_assoc, ?path_eqb_app_l;
     cbn [app path_eqb String.eqb Ascii.eqb Bool.eqb andb orb negb]).

(** ** conv_bn *)

(** C8. For all channel counts, [conv_bn(c_in, c_out)] is the block with
    the entries [conv] (a 3x3 convolution, stride 1, padding 1, no bias),
    [bn] (the normalization) and [relu] (the activation), in this order;
    built under any prefix from any input, the block is the chain
    input -> conv -> bn -> relu. *)
Theorem conv_bn_is_conv_norm_act (c_in c_out : Z) :
  call_conv_bn c_in c_out [] =
    Ok [ ("conv", Op (Conv2d c_in c_out 3 1 1 false));
         ("bn", Op (batch_norm c_out (PFloat 1) []));
         ("relu", Op (ReLU true)) ]
  /\ (forall w kw, keys (conv_bn c_in c_out w kw) = ["conv"; "bn"; "relu"])
  /\ (forall w kw,
        entry_at (conv_bn c_in c_out w kw) ["conv"]
          = Some (Op (Conv2d c_in c_out 3 1 1 false))
        /\ entry_at (conv_bn c_in c_out w kw) ["bn"]
          = Some (Op (batch_norm c_out w kw))
        /\ entry_at (conv_bn c_in c_out w kw) ["relu"] = Some (Op (ReLU true)))
  /\ (forall roots pfx input w kw,
        build_block roots pfx (conv_bn c_in c_out w kw) (mkBState [] input) =
          Ok (mkBState
                [ mkNode (pfx ++ ["conv"]) (Conv2d c_in c_out 3 1 1 false) [input];
                  mkNode (pfx ++ ["bn"]) (batch_norm c_out w kw) [pfx ++ ["conv"]];
                  mkNode (pfx ++ ["relu"]) (ReLU true) [pfx ++ ["bn"]] ]
                (pfx ++ ["relu"]))).
Proof.
  split; [reflexivity|].
  split; [reflexivity|].
  split; [intros; repeat split|].
  intros roots pfx input w kw.
  build_steps. reflexivity.
Qed.

(** ** residual *)

(** C3. For every channel count [c], [residual(c)] is the block with the
    four entries [in] (identity), [res1] and [res2] (two conv_bn blocks on
    [c] channels) and [add], in this order; [add] is the binary add with
    the input paths [('in',)] and [('res2', 'relu')], in this order.
    Built under any prefix from any input, the [add] node reads the
    identity node [in], which is fed by the block's input, and the [relu]
    node of [res2] (the one fed by [res2]'s [bn]), not the one of [res1]. *)
Theorem residual_adds_input_to_res2 (c : Z) :
  let cb := conv_bn c c (PFloat 1) [] in
  residual c [] =
    Ok [ ("in", Op Identity);
         ("res1", Block cb);
         ("res2", Block cb);
         ("add", Edge Add [RelativePath ["in"]; RelativePath ["res2"; "relu"]]) ]
  /\ keys cb = ["conv"; "bn"; "relu"]
  /\ (forall roots pfx input,
        (r <- residual c [] ;; build_block roots pfx r (mkBState [] input)) =
          Ok (mkBState
                [ mkNode (pfx ++ ["in"]) Identity [input];
                  mkNode (pfx ++ ["res1"; "conv"]) (Conv2d c c 3 1 1 false)
                         [pfx ++ ["in"]];
                  mkNode (pfx ++ ["res1"; "bn"]) (batch_norm c (PFloat 1) [])
                         [pfx ++ ["res1"; "conv"]];
                  mkNode (pfx ++ ["res1"; "relu"]) (ReLU true)
                         [pfx ++ ["res1"; "bn"]];
                  mkNode (pfx ++ ["res2"; "conv"]) (Conv2d c c 3 1 1 false)
                         [pfx ++ ["res1"; "relu"]];
                  mkNode (pfx ++ ["res2"; "bn"]) (batch_norm c (PFloat 1) [])
                         [pfx ++ ["res2"; "conv"]];
                  mkNode (pfx ++ ["res2"; "relu"]) (ReLU true)
                         [pfx ++ ["res2"; "bn"]];
                  mkNode (pfx ++ ["add"]) Add
                         [pfx ++ ["in"]; pfx ++ ["res2"; "relu"]] ]
                (pfx ++ ["add"]))).
Proof.
  cbv zeta.
  split; [reflexivity|].
  split; [reflexivity|].
  intros roots pfx input.
  change (residual c []) with
    (Ok [ ("in", Op Identity);
          ("res1", Block (conv_bn c c (PFloat 1) []));
          ("res2", Block (conv_bn c c (PFloat 1) []));
          ("add", Edge Add [rel_path ["in"]; rel_path ["res2"; "relu"]]) ]).
  build_steps. reflexivity.
Qed.

(** ** net *)

(** C10. [net()] succeeds; its layers carry the default widths (prep 64,
    layer1 128, layer2 256, layer3 512); a layer has a [residual] entry
    exactly when it is [layer1] or [layer3], where the entry is
    [residual(128)] and [residual(512)]; no layer has an [extra] entry. *)
Theorem net_default_layers :
  exists n r1 r3,
    net_default = Ok n
    /\ residual 128 [] = Ok r1
    /\ residual 512 [] = Ok r3
    /\ keys n = ["prep"; "layer1"; "layer2"; "layer3";
                 "pool"; "flatten"; "linear"; "classifier"]
    /\ entry_at n ["prep"] = Some (Block (conv_bn 3 64 (PFloat 1) []))
    /\ entry_at n ["layer1"] =
         Some (Block (conv_bn 64 128 (PFloat 1) []
                      ++ [("pool", Op (MaxPool2d 2)); ("residual", Block r1)]))
    /\ entry_at n ["layer2"] =
         Some (Block (conv_bn 128 256 (PFloat 1) []
                      ++ [("pool", Op (MaxPool2d 2))]))
    /\ entry_at n ["layer3"] =
         Some (Block (conv_bn 256 512 (PFloat 1) []
                      ++ [("pool", Op (MaxPool2d 2)); ("residual", Block r3)]))
    /\ (forall layer,
          entry_at n [layer; "residual"] <> None
          <-> layer = "layer1" \/ layer = "layer3")
    /\ (forall layer, entry_at n [layer; "extra"] = None).
Proof.
  do 3 eexists.
  split; [reflexivity|].
  split; [reflexivity|].
  split; [reflexivity|].
  split; [reflexivity|].
  split; [reflexivity|].
  split; [reflexivity|].
  split; [reflexivity|].
  split; [reflexivity|].
  split.
  - intros layer. cbn.
    repeat match goal with
      | |- context [String.eqb layer ?s] =>
          destruct (String.eqb_spec layer s) as [->|?]
      end; cbn; split; intros H;
      try congruence; try (now auto); try (destruct H; congruence).
  - intros layer. cbn.
    repeat match goal with
      | |- context [String.eqb layer ?s] =>
          destruct (String.eqb_spec layer s) as [->|?]
      end; reflexivity.
Qed.

(** ** The merged model specification *)

(** C5. The block specification given to [Network], the network body
    merged with the loss heads, has the entries [classifier], [loss] and
    [correct]: [loss] is the cross-entropy without reduction and
    [correct] the correctness indicator, both on the inputs
    [('classifier',)] and [('target',)]; the merge keeps the network's
    entries and puts the two heads after them, and the built graph feeds
    both heads from the [classifier] node and the [target] input. *)
Theorem model_spec_outputs :
  exists n m nodes,
    net_default = Ok n
    /\ model_spec = Ok m
    /\ m = n ++ losses
    /\ entry_at m ["classifier"] = Some (Op (Mul (1 # 8)))
    /\ entry_at m ["loss"] =
         Some (Edge (CrossEntropyLoss "none")
                 [AbsolutePath ["classifier"]; AbsolutePath ["target"]])
    /\ entry_at m ["correct"] =
         Some (Edge Correct
                 [AbsolutePath ["classifier"]; AbsolutePath ["target"]])
    /\ build_graph m = Ok nodes
    /\ node_at nodes ["classifier"] =
         Some (mkNode ["classifier"] (Mul (1 # 8)) [["linear"]])
    /\ node_at nodes ["loss"] =
         Some (mkNode ["loss"] (CrossEntropyLoss "none")
                 [["classifier"]; ["target"]])
    /\ node_at nodes ["correct"] =
         Some (mkNode ["correct"] Correct [["classifier"]; ["target"]]).
Proof.
  do 3 eexists.
  split; [vm_compute; reflexivity|].
  split; [vm_compute; reflexivity|].
  split; [vm_compute; reflexivity|].
  split; [vm_compute; reflexivity|].
  split; [vm_compute; reflexivity|].
  split; [vm_compute; reflexivity|].
  split; [vm_compute; reflexivity|].
  split; [vm_compute; reflexivity|].
  split; vm_compute; reflexivity.
Qed.

(** ** The learning rate *)

Open Scope Q_scope.

Lemma inject_Z_nonzero (n : Z) : (0 < n)%Z -> Qeq_bool (inject_Z n) 0 = false.
Proof.
  intros Hn. destruct (Qeq_bool (inject_Z n) 0) eqn:E; [|reflexivity].
  apply Qeq_bool_iff in E. unfold Qeq in E. simpl in E. lia.
Qed.

Lemma progress_value (N s : Z) :
  (0 < N)%Z -> progress N s = Ok (inject_Z s / inject_Z N).
Proof.
  intros HN. unfold progress, truediv. now rewrite inject_Z_nonzero.
Qed.

Lemma progress_zero_len (s : Z) : progress 0 s = Raise ZeroDivisionError.
Proof. reflexivity. Qed.

(** The fractional epoch count lies between the first and the last knot
    as long as the step does not exceed the planned number of steps. *)
Lemma fractional_epoch_bounds (N s : Z) :
  (0 < N)%Z -> (0 <= s <= epochs * N)%Z ->
  0 <= inject_Z s / inject_Z N <= inject_Z epochs.
Proof.
  intros HN [H0 H1].
  assert (HNq : 0 < inject_Z N)
    by (change (inject_Z 0 < inject_Z N); rewrite <- Zlt_Qlt; exact HN).
  split.
  - apply Qle_shift_div_l; [exact HNq|].
    rewrite Qmult_0_l. change (inject_Z 0 <= inject_Z s).
    rewrite <- Zle_Qle. exact H0.
  - apply Qle_shift_div_r; [exact HNq|].
    rewrite <- inject_Z_mult, <- Zle_Qle. exact H1.
Qed.

(** The schedule always has a value. *)
Lemma lr_schedule_total (x : Q) : exists v, lr_schedule x = Ok v.
Proof.
  unfold lr_schedule, PiecewiseLinear, epochs.
  cbn [List.length Nat.eqb negb combine].
  destruct (Qle_bool x 0); eexists; reflexivity.
Qed.

(** Between its first and last knot the schedule is the curve through
    (0, 0), (5, 0.4) and (24, 0). *)
Lemma lr_schedule_on_span (x v : Q) :
  0 <= x <= inject_Z epochs -> lr_schedule x = Ok v -> v == reference_curve x.
Proof.
  intros [H0 H24].
  unfold lr_schedule, PiecewiseLinear, epochs, reference_curve.
  cbn [List.length Nat.eqb negb combine interp_from].
  unfold epochs in H24.
  destruct (Qle_bool x 0) eqn:E0.
  - intros [= <-]. apply Qle_bool_iff in E0.
    assert (Hx : x == 0) by (apply Qle_antisym; assumption).
    assert (E5 : Qle_bool x 5 = true)
      by (apply Qle_bool_iff; rewrite Hx; discriminate).
    rewrite E5, Hx. reflexivity.
  - intros [= <-].
    destruct (Qle_bool x 5) eqn:E5.
    + unfold line_through. field.
    + assert (E24 : Qle_bool x (inject_Z 24) = true)
        by (apply Qle_bool_iff; exact H24).
      rewrite E24. unfold line_through.
      change (inject_Z 24) with 24. field.
Qed.

Lemma reference_curve_control_points :
  reference_curve 0 == 0
  /\ reference_curve 5 == 2 # 5
  /\ reference_curve (inject_Z epochs) == 0.
Proof. repeat split. Qed.

(** C2. For every step index [s] (and a positive number of training
    batches), the learning rate is the value of the schedule at
    [s / len(train_batches)] divided by the batch size 512; for the steps
    of the 24 epochs the schedule is the piecewise-linear curve through
    (0, 0), (5, 0.4) and (24, 0). *)
Theorem lr_is_schedule_over_batch_size (N s : Z) :
  (0 < N)%Z ->
  exists v,
    lr_schedule (inject_Z s / inject_Z N) = Ok v
    /\ lr N s = Ok (v / 512)
    /\ ((0 <= s <= epochs * N)%Z ->
        v == reference_curve (inject_Z s / inject_Z N))
    /\ (reference_curve 0 == 0
        /\ reference_curve 5 == 2 # 5
        /\ reference_curve 24 == 0).
Proof.
  intros HN.
  destruct (lr_schedule_total (inject_Z s / inject_Z N)) as [v Hv].
  exists v. split; [exact Hv|]. split; [|split].
  - unfold lr. rewrite (progress_value N s HN).
    cbn [bind]. rewrite Hv. reflexivity.
  - intros Hs. apply lr_schedule_on_span; [|exact Hv].
    apply fractional_epoch_bounds; assumption.
  - exact reference_curve_control_points.
Qed.

Lemma lr_is_schedule_over_batch_size_witness :
  exists v,
    lr_schedule (inject_Z 194 / inject_Z 97) = Ok v
    /\ lr 97 194 = Ok (v / 512)
    /\ ((0 <= 194 <= epochs * 97)%Z ->
        v == reference_curve (inject_Z 194 / inject_Z 97))
    /\ (reference_curve 0 == 0
        /\ reference_curve 5 == 2 # 5
        /\ reference_curve 24 == 0).
Proof. apply (lr_is_schedule_over_batch_size 97 194). reflexivity. Defined.

(** C4, as stated, fails: with 97 training batches, step 194 is within the
    24 epochs and the schedule is given the argument 2, which is outside
    [0, 1]. *)
Lemma schedule_argument_not_in_unit_interval :
  (0 <= 194 <= epochs * 97)%Z
  /\ progress 97 194 = Ok (194 # 97)
  /\ ~ (0 <= (194 # 97) <= 1).
Proof.
  split; [split; discriminate|].
  split; [reflexivity|].
  intros [_ H]. apply H. reflexivity.
Qed.

(** C4, amended. The schedule is a function of the fractional epoch count
    [step / len(train_batches)]; its knots are 0, 5 and 24 (the number of
    epochs), and for every step of the 24 epochs the argument passed to it
    lies between the first and the last knot. *)
Theorem schedule_argument_within_knots (N s : Z) :
  (0 < N)%Z -> (0 <= s <= epochs * N)%Z ->
  exists t,
    progress N s = Ok t
    /\ lr N s = (v <- lr_schedule t ;; truediv v (inject_Z batch_size))
    /\ lr_schedule = PiecewiseLinear [0; 5; 24] [0; 2 # 5; 0]
    /\ 0 <= t <= 24.
Proof.
  intros HN Hs. exists (inject_Z s / inject_Z N).
  split; [apply progress_value; exact HN|].
  split; [unfold lr; rewrite (progress_value N s HN); reflexivity|].
  split; [reflexivity|].
  exact (fractional_epoch_bounds N s HN Hs).
Qed.

Lemma schedule_argument_within_knots_witness :
  exists t,
    progress 97 194 = Ok t
    /\ lr 97 194 = (v <- lr_schedule t ;; truediv v (inject_Z batch_size))
    /\ lr_schedule = PiecewiseLinear [0; 5; 24] [0; 2 # 5; 0]
    /\ 0 <= t <= 24.
Proof.
  apply (schedule_argument_within_knots 97 194).
  - reflexivity.
  - split; discriminate.
Defined.

Close Scope Q_scope.

(** ** The reference flow *)

Lemma model_spec_ok : exists m, model_spec = Ok m.
Proof. eexists. vm_compute. reflexivity. Qed.

Section MainProperties.

Variables Grace Compressor Memory Dataset : Type.
Variable Allgather : Compressor -> Memory -> Z -> Grace.
Variable TopKCompressor : Q -> Compressor.
Variable ResidualMemory : Memory.
Variable grace_from_params : dict pyval -> Grace.
Variable cifar10 : string -> Dataset.
Variable len_train_batches : Dataset -> Z -> Z.

Lemma main_second_grc_rebinds (args : Args) (l : Locals Grace) :
  main_second_grc grace_from_params args l =
    Ok (mkLocals (Some (grace_from_params (hardcoded_params (world_size args))))
                 (Some (hardcoded_params (world_size args)))).
Proof. reflexivity. Qed.

(** What [main] passes to [train]. *)
Lemma main_train_call (args : Args) :
  exists m,
    model_spec = Ok m
    /\ main Allgather TopKCompressor ResidualMemory grace_from_params
            cifar10 len_train_batches args =
       Ok (mkTrainCall Grace Dataset m
             (mkSGD (lr (len_train_batches (cifar10 (data_dir args)) 512))
                    (9 # 10) ((5 # 10000) * 512) true)
             (cifar10 (data_dir args)) 24 (master_address args) (rank args)
             (grace_from_params (hardcoded_params (world_size args)))
             false (backend args)).
Proof.
  destruct model_spec_ok as [m Hm]. exists m. split; [exact Hm|].
  unfold main. rewrite Hm. reflexivity.
Qed.

(** C1. [main] binds [grc] twice: first to
    [Allgather(TopKCompressor(0.3), ResidualMemory(), world_size)], then,
    whatever it was bound to, to [grace_from_params] of the params
    compressor none, memory none, communicator allreduce (and the world
    size).  The configuration passed to [train] is the second one, and
    the first one is never used: the call of [train] is the same for any
    other [Allgather], [TopKCompressor] and [ResidualMemory]. *)
Theorem second_grc_overwrites_first (args : Args) :
  let first :=
    Allgather (TopKCompressor (3 # 10)) ResidualMemory (world_size args) in
  let second :=
    grace_from_params
      [ ("compressor", PStr "none");
        ("memory", PStr "none");
        ("communicator", PStr "allreduce");
        ("world_size", PInt (world_size args)) ] in
  grc (main_first_grc Allgather TopKCompressor ResidualMemory args
         (mkLocals None None)) = Some first
  /\ (forall l, exists l',
        main_second_grc grace_from_params args l = Ok l'
        /\ grc l' = Some second)
  /\ (exists call,
        main Allgather TopKCompressor ResidualMemory grace_from_params
             cifar10 len_train_batches args = Ok call
        /\ train_grc call = second)
  /\ (forall (Compressor' Memory' : Type)
             (Allgather' : Compressor' -> Memory' -> Z -> Grace)
             (TopKCompressor' : Q -> Compressor')
             (ResidualMemory' : Memory'),
        main Allgather' TopKCompressor' ResidualMemory' grace_from_params
             cifar10 len_train_batches args
        = main Allgather TopKCompressor ResidualMemory grace_from_params
               cifar10 len_train_batches args).
Proof.
  cbv zeta. split; [reflexivity|]. split; [|split].
  - intros l. eexists. split; [apply main_second_grc_rebinds|reflexivity].
  - destruct (main_train_call args) as [m [_ Hcall]].
    eexists. split; [exact Hcall|reflexivity].
  - intros. reflexivity.
Qed.

(** C6. The number of epochs passed to [train] is the constant 24,
    whatever the command line, the dataset and the number of batches. *)
Theorem train_runs_24_epochs (args : Args) :
  exists call,
    main Allgather TopKCompressor ResidualMemory grace_from_params
         cifar10 len_train_batches args = Ok call
    /\ train_epochs call = 24.
Proof.
  destruct (main_train_call args) as [m [_ Hcall]].
  eexists. split; [exact Hcall|reflexivity].
Qed.

(** C9. Two command lines that agree on the data directory, the log
    directory, the master address, the rank, the world size and the
    backend, and differ in any of the flags [--compression_method],
    [--compress_ratio], [--threshold], [--qstates], [--memory],
    [--communication_method], [--momentum], [--efsgdlr] and
    [--clipping], lead to the same call of [train]: the configuration is
    [grace_from_params] of the hardcoded params and the world size, and
    the momentum of the optimizer is 0.9. *)
Theorem compression_flags_have_no_effect (a1 a2 : Args) :
  data_dir a1 = data_dir a2 ->
  log_dir a1 = log_dir a2 ->
  master_address a1 = master_address a2 ->
  rank a1 = rank a2 ->
  world_size a1 = world_size a2 ->
  backend a1 = backend a2 ->
  main Allgather TopKCompressor ResidualMemory grace_from_params
       cifar10 len_train_batches a1
  = main Allgather TopKCompressor ResidualMemory grace_from_params
         cifar10 len_train_batches a2
  /\ exists call,
       main Allgather TopKCompressor ResidualMemory grace_from_params
            cifar10 len_train_batches a1 = Ok call
       /\ train_grc call =
            grace_from_params
              [ ("compressor", PStr "none");
                ("memory", PStr "none");
                ("communicator", PStr "allreduce");
                ("world_size", PInt (world_size a1)) ]
       /\ sgd_momentum (train_opt call) = (9 # 10)%Q.
Proof.
  intros Hdata _ Hmaster Hrank Hws Hbackend.
  destruct (main_train_call a1) as [m [Hm H1]].
  destruct (main_train_call a2) as [m' [Hm' H2]].
  assert (m' = m) by congruence. subst m'.
  split.
  - rewrite H1, H2, Hdata, Hmaster, Hrank, Hws, Hbackend. reflexivity.
  - eexists. split; [exact H1|]. split; reflexivity.
Qed.

End MainProperties.

Lemma compression_flags_have_no_effect_witness :
  let main' :=
    main (fun (c : Q) (_ : unit) (ws : Z) => [("allgather", PInt ws)])
         (fun ratio => ratio) tt (fun p => p)
         (fun dir => dir) (fun _ _ => 97) in
  main' default_args = main' flags_changed
  /\ exists call,
       main' default_args = Ok call
       /\ train_grc call = hardcoded_params 2
       /\ sgd_momentum (train_opt call) = (9 # 10)%Q.
Proof.
  apply (compression_flags_have_no_effect
           (dict pyval) Q unit string
           (fun (c : Q) (_ : unit) (ws : Z) => [("allgather", PInt ws)])
           (fun ratio => ratio) tt (fun p => p)
           (fun dir => dir) (fun _ _ => 97)
           default_args flags_changed); reflexivity.
Defined.

(** ** The TSV logger *)


Lemma split_tab_nonempty (s : string) : split_tab s <> [].
Proof.
  induction s as [|c s IH]; simpl; [discriminate|].
  destruct (Ascii.eqb c tab); [discriminate|].
  destruct (split_tab s); discriminate.
Qed.







(** The header written by [__init__] names the three columns. *)
Lemma tsv_header_fields :
  split_tab (hd EmptyString TSVLogger_init) = ["epoch"; "hours"; "top1Accuracy"].
Proof. reflexivity. Qed.



(** * Further properties *)

(** ** Dicts *)

Lemma dict_get_set_same {V : Type} (d : dict V) (k : string) (v : V) :
  dict_get (dict_set d k v) k = Some v.
Proof.
  induction d as [|[k' v'] d IH]; simpl.
  - now rewrite String.eqb_refl.
  - destruct (String.eqb k k') eqn:E; simpl; rewrite E; [reflexivity|exact IH].
Qed.

Lemma dict_get_set_other {V : Type} (d : dict V) (k k' : string) (v : V) :
  k <> k' -> dict_get (dict_set d k v) k' = dict_get d k'.
Proof.
  intros Hne. induction d as [|[k0 v0] d IH]; simpl.
  - destruct (String.eqb_spec k' k); [congruence|reflexivity].
  - destruct (String.eqb_spec k k0) as [->|Hk]; simpl.
    + destruct (String.eqb_spec k' k0); [congruence|reflexivity].
    + now rewrite IH.
Qed.

(** ** The network description in closed form *)

Lemma kw_ok_keys (kw : kwargs) :
  kw_ok kw = true ->
  has_key kw "c" = false /\ has_key kw "c_in" = false
  /\ has_key kw "c_out" = false.
Proof.
  unfold kw_ok. intros H.
  apply andb_prop in H. destruct H as [H H3].
  apply andb_prop in H. destruct H as [H1 H2].
  now rewrite negb_true_iff in H1, H2, H3.
Qed.

Lemma call_conv_bn_ok (c_in c_out : Z) (kw : kwargs) :
  kw_ok kw = true -> call_conv_bn c_in c_out kw = Ok (conv_bn_kw c_in c_out kw).
Proof.
  intros H. destruct (kw_ok_keys kw H) as (_ & H1 & H2).
  unfold call_conv_bn, conv_bn_kw. rewrite H1, H2. cbn [orb].
  destruct (dict_get kw "bn_weight_init"); reflexivity.
Qed.

Lemma call_residual_ok (c : Z) (kw : kwargs) :
  kw_ok kw = true -> call_residual c kw = Ok (residual_kw c kw).
Proof.
  intros H. destruct (kw_ok_keys kw H) as (H0 & _ & _).
  unfold call_residual, residual. rewrite H0, (call_conv_bn_ok c c kw H).
  reflexivity.
Qed.

Lemma net_closed_ext c0 c1 c2 c3 weight pool kw (r r' e e' : string -> bool) :
  (forall l, In l layer_names -> r l = r' l) ->
  (forall l, In l layer_names -> e l = e' l) ->
  net_closed c0 c1 c2 c3 weight pool kw r e
  = net_closed c0 c1 c2 c3 weight pool kw r' e'.
Proof.
  intros Hr He. unfold net_closed.
  rewrite !(Hr "prep"), !(Hr "layer1"), !(Hr "layer2"), !(Hr "layer3"),
          !(He "prep"), !(He "layer1"), !(He "layer2"), !(He "layer3")
    by (simpl; tauto).
  reflexivity.
Qed.

Section NetClosedForm.

Variables (channels : dict Z) (c0 c1 c2 c3 : Z).
Variables (weight : Q) (pool : module_) (kw : kwargs).
Hypothesis Hprep : dict_get channels "prep" = Some c0.
Hypothesis Hlayer1 : dict_get channels "layer1" = Some c1.
Hypothesis Hlayer2 : dict_get channels "layer2" = Some c2.
Hypothesis Hlayer3 : dict_get channels "layer3" = Some c3.
Hypothesis Hkw : kw_ok kw = true.

Lemma basic_net_closed :
  basic_net channels weight pool kw =
    Ok (net_closed c0 c1 c2 c3 weight pool kw (fun _ => false) (fun _ => false)).
Proof.
  unfold basic_net, getitem.
  rewrite Hprep, Hlayer1, Hlayer2, Hlayer3. cbn [bind].
  rewrite !call_conv_bn_ok by exact Hkw. cbn [bind].
  unfold net_closed, layer_entries, with_pool, conv_bn_kw.
  destruct (dict_get kw "bn_weight_init"); reflexivity.
Qed.

Lemma layer_has_width (l : string) :
  In l layer_names -> exists c, dict_get channels l = Some c.
Proof.
  simpl. intros [<-|[<-|[<-|[<-|[]]]]]; eauto.
Qed.

Ltac layer_cases Hl Hc :=
  simpl in Hl; destruct Hl as [<-|[<-|[<-|[<-|[]]]]];
  [ rewrite Hprep in Hc | rewrite Hlayer1 in Hc
  | rewrite Hlayer2 in Hc | rewrite Hlayer3 in Hc ];
  injection Hc as <-;
  unfold net_closed, setitem_in, getitem, layer_entries, conv_bn_kw;
  cbn [dict_get String.eqb Ascii.eqb Bool.eqb bind dict_set orb];
  rewrite ?orb_false_r, ?orb_true_r;
  destruct (dict_get kw "bn_weight_init").

(** One assignment [n[l]['residual'] = ...], before any [extra]. *)
Lemma attach_residual_step (l : string) (c : Z) (r : string -> bool) :
  In l layer_names ->
  dict_get channels l = Some c ->
  setitem_in (net_closed c0 c1 c2 c3 weight pool kw r (fun _ => false))
    l "residual" (Block (residual_kw c kw))
  = Ok (net_closed c0 c1 c2 c3 weight pool kw
          (fun x => r x || String.eqb x l) (fun _ => false)).
Proof.
  intros Hl Hc. layer_cases Hl Hc.
  1-2: destruct (r "prep"); reflexivity.
  1-2: destruct (r "layer1"); reflexivity.
  1-2: destruct (r "layer2"); reflexivity.
  1-2: destruct (r "layer3"); reflexivity.
Qed.

(** One assignment [n[l]['extra'] = ...]. *)
Lemma attach_extra_step (l : string) (c : Z) (r e : string -> bool) :
  In l layer_names ->
  dict_get channels l = Some c ->
  setitem_in (net_closed c0 c1 c2 c3 weight pool kw r e)
    l "extra" (Block (conv_bn_kw c c kw))
  = Ok (net_closed c0 c1 c2 c3 weight pool kw
          r (fun x => e x || String.eqb x l)).
Proof.
  intros Hl Hc. layer_cases Hl Hc.
  1-2: destruct (r "prep"), (e "prep"); reflexivity.
  1-2: destruct (r "layer1"), (e "layer1"); reflexivity.
  1-2: destruct (r "layer2"), (e "layer2"); reflexivity.
  1-2: destruct (r "layer3"), (e "layer3"); reflexivity.
Qed.

Lemma attach_residuals_closed (res_layers : list string) :
  forall r,
    (forall l, In l res_layers -> In l layer_names) ->
    attach_residuals channels kw res_layers
      (net_closed c0 c1 c2 c3 weight pool kw r (fun _ => false))
    = Ok (net_closed c0 c1 c2 c3 weight pool kw
            (fun x => r x || mem x res_layers) (fun _ => false)).
Proof.
  induction res_layers as [|l rest IH]; intros r Hin.
  - cbn [attach_residuals]. f_equal. apply net_closed_ext; intros; simpl;
      now rewrite ?orb_false_r.
  - assert (Hl : In l layer_names) by (apply Hin; now left).
    destruct (layer_has_width l Hl) as [c Hc].
    cbn [attach_residuals]. unfold getitem at 1. rewrite Hc. cbn [bind].
    rewrite call_residual_ok by exact Hkw. cbn [bind].
    rewrite (attach_residual_step l c r Hl Hc). cbn [bind].
    rewrite IH by (intros; apply Hin; now right).
    f_equal. apply net_closed_ext; intros x _; [|reflexivity].
    unfold mem. cbn [existsb]. now rewrite orb_assoc.
Qed.

Lemma attach_extras_closed (extra_layers : list string) :
  forall r e,
    (forall l, In l extra_layers -> In l layer_names) ->
    attach_extras channels kw extra_layers
      (net_closed c0 c1 c2 c3 weight pool kw r e)
    = Ok (net_closed c0 c1 c2 c3 weight pool kw
            r (fun x => e x || mem x extra_layers)).
Proof.
  induction extra_layers as [|l rest IH]; intros r e Hin.
  - cbn [attach_extras]. f_equal. apply net_closed_ext; intros; simpl;
      now rewrite ?orb_false_r.
  - assert (Hl : In l layer_names) by (apply Hin; now left).
    destruct (layer_has_width l Hl) as [c Hc].
    cbn [attach_extras]. unfold getitem at 1 2. rewrite Hc. cbn [bind].
    rewrite call_conv_bn_ok by exact Hkw. cbn [bind].
    rewrite (attach_extra_step l c r e Hl Hc). cbn [bind].
    rewrite IH by (intros; apply Hin; now right).
    f_equal. apply net_closed_ext; intros x _; [reflexivity|].
    unfold mem. cbn [existsb]. now rewrite orb_assoc.
Qed.

Lemma attach_residuals_app (rs1 rs2 : list string) :
  forall n,
    attach_residuals channels kw (rs1 ++ rs2) n
    = (n' <- attach_residuals channels kw rs1 n ;;
       attach_residuals channels kw rs2 n').
Proof.
  induction rs1 as [|l rs1 IH]; intros n; [reflexivity|].
  cbn [app attach_residuals].
  destruct (getitem channels l) as [c|]; [|reflexivity]. cbn [bind].
  destruct (call_residual c kw) as [b|]; [|reflexivity]. cbn [bind].
  destruct (setitem_in n l "residual" (Block b)) as [n'|]; [|reflexivity].
  cbn [bind]. apply IH.
Qed.

Lemma attach_extras_app (es1 es2 : list string) :
  forall n,
    attach_extras channels kw (es1 ++ es2) n
    = (n' <- attach_extras channels kw es1 n ;;
       attach_extras channels kw es2 n').
Proof.
  induction es1 as [|l es1 IH]; intros n; [reflexivity|].
  cbn [app attach_extras].
  destruct (getitem channels l) as [c|]; [|reflexivity]. cbn [bind].
  destruct (call_conv_bn c c kw) as [b|]; [|reflexivity]. cbn [bind].
  destruct (setitem_in n l "extra" (Block b)) as [n'|]; [|reflexivity].
  cbn [bind]. apply IH.
Qed.

(** Assigning under a name that is not one of the four dict layers. *)
Lemma setitem_in_bad_layer (l key : string) (v : spec) (c : Z)
  (r e : string -> bool) :
  ~ In l layer_names ->
  dict_get channels l = Some c ->
  setitem_in (net_closed c0 c1 c2 c3 weight pool kw r e) l key v
  = Raise (bad_layer_error channels l).
Proof.
  intros Hl Hc. unfold bad_layer_error. rewrite Hc.
  unfold setitem_in, getitem, net_closed, mem.
  cbn [dict_get existsb]. simpl in Hl.
  destruct (String.eqb_spec l "prep"); [exfalso; apply Hl; subst; auto 6|].
  destruct (String.eqb_spec l "layer1"); [exfalso; apply Hl; subst; auto 6|].
  destruct (String.eqb_spec l "layer2"); [exfalso; apply Hl; subst; auto 6|].
  destruct (String.eqb_spec l "layer3"); [exfalso; apply Hl; subst; auto 6|].
  destruct (String.eqb_spec l "pool"); [reflexivity|].
  destruct (String.eqb_spec l "flatten"); [reflexivity|].
  destruct (String.eqb_spec l "linear"); [reflexivity|].
  destruct (String.eqb_spec l "classifier"); reflexivity.
Qed.

(** X1. For widths that cover the four layers, keyword arguments that
    bind, and layer names among prep, layer1, layer2 and layer3, [net]
    returns the network in which exactly the layers named in
    [res_layers] carry a [residual] block and exactly those named in
    [extra_layers] an [extra] block, [residual] before [extra], both
    after the base entries of the layer. *)
Theorem net_closed_form (chs : option (dict Z))
  (extra_layers res_layers : list string) :
  channels_or_default chs = channels ->
  (forall l, In l res_layers -> In l layer_names) ->
  (forall l, In l extra_layers -> In l layer_names) ->
  net chs weight pool extra_layers res_layers kw
  = Ok (net_closed c0 c1 c2 c3 weight pool kw
          (fun l => mem l res_layers) (fun l => mem l extra_layers)).
Proof.
  intros Hch Hres Hextra. unfold net. rewrite Hch.
  rewrite basic_net_closed. cbn [bind].
  rewrite attach_residuals_closed by exact Hres. cbn [bind].
  rewrite attach_extras_closed by exact Hextra. cbn [bind].
  reflexivity.
Qed.

(** X2. The network does not depend on the order of the layer names nor
    on repetitions among them: two calls whose [res_layers] name the same
    layers and whose [extra_layers] name the same layers return the same
    network. *)
Theorem net_layer_order_irrelevant (chs : option (dict Z))
  (extra_layers extra_layers' res_layers res_layers' : list string) :
  channels_or_default chs = channels ->
  (forall l, In l res_layers -> In l layer_names) ->
  (forall l, In l res_layers' -> In l layer_names) ->
  (forall l, In l extra_layers -> In l layer_names) ->
  (forall l, In l extra_layers' -> In l layer_names) ->
  (forall l, In l res_layers <-> In l res_layers') ->
  (forall l, In l extra_layers <-> In l extra_layers') ->
  exists n,
    net chs weight pool extra_layers res_layers kw = Ok n
    /\ net chs weight pool extra_layers' res_layers' kw = Ok n.
Proof.
  intros Hch Hr Hr' He He' Hsame_r Hsame_e.
  unfold net. rewrite Hch, basic_net_closed. cbn [bind].
  rewrite (attach_residuals_closed res_layers) by exact Hr.
  rewrite (attach_residuals_closed res_layers') by exact Hr'. cbn [bind].
  rewrite (attach_extras_closed extra_layers) by exact He.
  rewrite (attach_extras_closed extra_layers') by exact He'. cbn [bind].
  eexists. split; [reflexivity|]. f_equal.
  assert (Hmem : forall (a b : list string) l,
             (forall x, In x a <-> In x b) -> mem l a = mem l b).
  { intros a b l Hab. unfold mem.
    destruct (existsb (String.eqb l) a) eqn:Ea;
      destruct (existsb (String.eqb l) b) eqn:Eb; try reflexivity.
    - apply existsb_exists in Ea. destruct Ea as [x [Hx Hlx]].
      apply Hab in Hx.
      assert (existsb (String.eqb l) b = true)
        by (apply existsb_exists; eauto).
      congruence.
    - apply existsb_exists in Eb. destruct Eb as [x [Hx Hlx]].
      apply Hab in Hx.
      assert (existsb (String.eqb l) a = true)
        by (apply existsb_exists; eauto).
      congruence. }
  apply net_closed_ext; intros l _; cbn [orb]; apply Hmem;
    intros x; symmetry; auto.
Qed.

(** X3. [net] fails at the first name of [res_layers] that is not one of
    the four dict layers, and, when all of [res_layers] are, at the first
    such name of [extra_layers]: with a [KeyError] when the widths or the
    network have no such key, with a [TypeError] when the name is that of
    a module of the network. *)
Theorem net_fails_on_first_bad_layer (chs : option (dict Z))
  (good rest other : list string) (bad : string) :
  channels_or_default chs = channels ->
  (forall l, In l good -> In l layer_names) ->
  ~ In bad layer_names ->
  net chs weight pool other (good ++ bad :: rest) kw
    = Raise (bad_layer_error channels bad)
  /\ ((forall l, In l other -> In l layer_names) ->
      net chs weight pool (good ++ bad :: rest) other kw
        = Raise (bad_layer_error channels bad)).
Proof.
  intros Hch Hgood Hbad. unfold net. rewrite Hch.
  rewrite basic_net_closed. cbn [bind]. split.
  - rewrite attach_residuals_app.
    rewrite attach_residuals_closed by exact Hgood. cbn [bind].
    cbn [attach_residuals]. unfold getitem at 1.
    destruct (dict_get channels bad) as [c|] eqn:Hc; cbn [bind].
    + rewrite call_residual_ok by exact Hkw. cbn [bind].
      rewrite (setitem_in_bad_layer bad "residual" _ c) by assumption.
      reflexivity.
    + unfold bad_layer_error. rewrite Hc. reflexivity.
  - intros Hother.
    rewrite attach_residuals_closed by exact Hother. cbn [bind].
    rewrite attach_extras_app.
    rewrite attach_extras_closed by exact Hgood. cbn [bind].
    cbn [attach_extras]. unfold getitem at 1 2.
    destruct (dict_get channels bad) as [c|] eqn:Hc; cbn [bind].
    + rewrite call_conv_bn_ok by exact Hkw. cbn [bind].
      rewrite (setitem_in_bad_layer bad "extra" _ c) by assumption.
      reflexivity.
    + unfold bad_layer_error. rewrite Hc. reflexivity.
Qed.

End NetClosedForm.

Ltac in_layer_names :=
  let l := fresh "l" in
  let H := fresh "H" in
  intros l H; simpl in H; simpl;
  repeat (destruct H as [<-|H]; [auto 6|]); destruct H.

Lemma net_closed_form_witness :
  net (Some narrow_channels) (1 # 8) (MaxPool2d 2)
      ["layer3"] ["layer2"; "prep"; "layer2"] half_init
  = Ok (net_closed 16 32 64 128 (1 # 8) (MaxPool2d 2) half_init
          (fun l => mem l ["layer2"; "prep"; "layer2"])
          (fun l => mem l ["layer3"])).
Proof.
  apply (net_closed_form narrow_channels 16 32 64 128 (1 # 8) (MaxPool2d 2)
           half_init);
    try reflexivity; in_layer_names.
Defined.

Lemma net_layer_order_irrelevant_witness :
  exists n,
    net None (1 # 8) (MaxPool2d 2) ["prep"] ["layer1"; "layer3"] [] = Ok n
    /\ net None (1 # 8) (MaxPool2d 2) ["prep"; "prep"]
           ["layer3"; "layer1"; "layer3"] [] = Ok n.
Proof.
  apply (net_layer_order_irrelevant default_channels 64 128 256 512
           (1 # 8) (MaxPool2d 2) []);
    try reflexivity; try in_layer_names;
    intros l; simpl; intuition.
Defined.

Lemma net_fails_on_first_bad_layer_witness :
  net (Some narrow_channels) (1 # 8) (MaxPool2d 2) []
      (["layer1"] ++ "pool" :: ["layer7"]) half_init
    = Raise (bad_layer_error narrow_channels "pool")
  /\ ((forall l, In l (@nil string) -> In l layer_names) ->
      net (Some narrow_channels) (1 # 8) (MaxPool2d 2)
          (["layer1"] ++ "pool" :: ["layer7"]) [] half_init
        = Raise (bad_layer_error narrow_channels "pool")).
Proof.
  apply (net_fails_on_first_bad_layer narrow_channels 16 32 64 128
           (1 # 8) (MaxPool2d 2) half_init);
    try reflexivity; try in_layer_names.
  simpl. intros H. repeat (destruct H as [H|H]; [discriminate H|]). exact H.
Defined.

(** X4. [basic_net] needs the four widths prep, layer1, layer2 and
    layer3: when one is missing it raises the [KeyError] of the first
    missing one, in this order, and so does [net]; otherwise it returns a
    network. *)
Theorem basic_net_missing_width (chs : option (dict Z)) (weight : Q)
  (pool : module_) (extra_layers res_layers : list string) (kw : kwargs) :
  kw_ok kw = true ->
  match first_missing (channels_or_default chs) with
  | Some k =>
      basic_net (channels_or_default chs) weight pool kw = Raise (KeyError k)
      /\ net chs weight pool extra_layers res_layers kw = Raise (KeyError k)
  | None =>
      exists n, basic_net (channels_or_default chs) weight pool kw = Ok n
  end.
Proof.
  intros Hkw. set (ch := channels_or_default chs).
  unfold first_missing, layer_names, has_key. cbn [find].
  unfold net. fold ch. unfold basic_net, getitem.
  destruct (dict_get ch "prep") as [c0|]; cbn [negb bind];
    [|split; reflexivity].
  rewrite ?call_conv_bn_ok by exact Hkw; cbn [bind].
  destruct (dict_get ch "layer1") as [c1|]; cbn [negb bind];
    rewrite ?call_conv_bn_ok by exact Hkw; cbn [bind];
    [|split; reflexivity].
  destruct (dict_get ch "layer2") as [c2|]; cbn [negb bind];
    rewrite ?call_conv_bn_ok by exact Hkw; cbn [bind];
    [|split; reflexivity].
  destruct (dict_get ch "layer3") as [c3|]; cbn [negb bind];
    rewrite ?call_conv_bn_ok by exact Hkw; cbn [bind];
    [|split; reflexivity].
  eexists. reflexivity.
Qed.

Lemma basic_net_missing_width_witness :
  basic_net [("prep", 64); ("layer2", 256)] (1 # 8) (MaxPool2d 2) []
    = Raise (KeyError "layer1")
  /\ net (Some [("prep", 64); ("layer2", 256)]) (1 # 8) (MaxPool2d 2)
         [] ["layer1"; "layer3"] []
    = Raise (KeyError "layer1").
Proof.
  apply (basic_net_missing_width (Some [("prep", 64); ("layer2", 256)])
           (1 # 8) (MaxPool2d 2) [] ["layer1"; "layer3"] []).
  reflexivity.
Defined.

(** ** The logger over a run *)

Lemma split_on_tab (s : string) : split_on tab s = split_tab s.
Proof. induction s as [|c s IH]; simpl; [reflexivity|]. now rewrite IH. Qed.

Lemma free_of_app (sep : ascii) (a b : string) :
  free_of sep (a ++ b) = free_of sep a && free_of sep b.
Proof.
  induction a as [|c a IH]; simpl; [reflexivity|].
  rewrite IH. now rewrite andb_assoc.
Qed.

Lemma split_on_field (sep : ascii) (a rest : string) :
  free_of sep a = true ->
  split_on sep (a ++ String sep rest) = a :: split_on sep rest.
Proof.
  induction a as [|c a IH]; simpl; intros H.
  - now rewrite Ascii.eqb_refl.
  - apply andb_prop in H. destruct H as [Hc Ha].
    apply negb_true_iff in Hc. rewrite Hc, (IH Ha). reflexivity.
Qed.

Lemma split_on_last (sep : ascii) (a : string) :
  free_of sep a = true -> split_on sep a = [a].
Proof.
  induction a as [|c a IH]; simpl; intros H.
  - reflexivity.
  - apply andb_prop in H. destruct H as [Hc Ha].
    apply negb_true_iff in Hc. rewrite Hc, (IH Ha). reflexivity.
Qed.

(** Numbers are printed with digits, a sign and a point only. *)
Lemma free_of_uint (sep : ascii) (u : Decimal.uint) :
  sep = tab \/ sep = newline ->
  free_of sep (NilEmpty.string_of_uint u) = true.
Proof. intros [-> | ->]; induction u; simpl; auto. Qed.

Lemma free_of_string_of_Z (sep : ascii) (z : Z) :
  sep = tab \/ sep = newline -> free_of sep (string_of_Z z) = true.
Proof.
  intros Hsep. unfold string_of_Z, NilZero.string_of_int.
  destruct (Z.to_int z) as [u|u]; unfold NilZero.string_of_uint;
    destruct u; destruct Hsep as [-> | ->]; simpl;
    auto using free_of_uint.
Qed.

Lemma free_of_zeros (sep : ascii) (n : nat) :
  sep = tab \/ sep = newline -> free_of sep (zeros n) = true.
Proof. intros [-> | ->]; induction n; simpl; auto. Qed.

Lemma free_of_format_f (sep : ascii) (prec : nat) (q : Q) :
  sep = tab \/ sep = newline -> free_of sep (format_f prec q) = true.
Proof.
  intros Hsep. unfold format_f, zfill.
  rewrite !free_of_app, free_of_string_of_Z by exact Hsep.
  destruct (Qcompare q 0); destruct prec;
    cbn [free_of andb];
    rewrite ?free_of_app, ?free_of_zeros, ?free_of_string_of_Z by exact Hsep;
    destruct Hsep as [-> | ->]; reflexivity.
Qed.

Lemma free_of_py_format_f (sep : ascii) (prec : nat) (v : pyval) (s : string) :
  sep = tab \/ sep = newline ->
  py_format_f prec v = Ok s -> free_of sep s = true.
Proof.
  intros Hsep. unfold py_format_f.
  destruct (as_number v) as [q|].
  - intros [= <-]. apply free_of_format_f. exact Hsep.
  - destruct v; discriminate.
Qed.

(** A successful [append] adds one row at the end. *)
Lemma append_adds_row (float_repr : Q -> string) (log log' : list string)
  (output : dict pyval) :
  int_epoch output = true ->
  TSVLogger_append float_repr log output = Ok log' ->
  exists line, log' = log ++ [line] /\ tsv_row line = true.
Proof.
  unfold int_epoch, TSVLogger_append, getitem, tsv_line.
  destruct (dict_get output "epoch") as [[| |e| |]|]; try discriminate.
  intros _. cbn [bind].
  destruct (dict_get output "total time") as [t|]; [|discriminate].
  cbn [bind].
  destruct (py_truediv t (PInt 3600)) as [hours|]; [|discriminate].
  cbn [bind].
  destruct (dict_get output "test acc") as [a|]; [|discriminate].
  cbn [bind].
  destruct (py_mul_int a 100) as [acc|]; [|discriminate]. cbn [bind].
  destruct (py_format_f 8 hours) as [sh|] eqn:Eh; [|discriminate].
  cbn [bind].
  destruct (py_format_f 2 acc) as [sa|] eqn:Ea; [|discriminate].
  cbn [bind]. intros [= <-]. eexists. split; [reflexivity|].
  unfold tsv_row, py_format.
  change (string_of_Z e ++ String tab sh ++ String tab sa)%string
    with (string_of_Z e ++ String tab (sh ++ String tab sa))%string.
  rewrite split_on_field by (apply free_of_string_of_Z; now left).
  rewrite split_on_field
    by (apply (free_of_py_format_f tab 8 hours); [now left|exact Eh]).
  rewrite split_on_last
    by (apply (free_of_py_format_f tab 2 acc); [now left|exact Ea]).
  cbn [List.length Nat.eqb andb].
  repeat (rewrite free_of_app; cbn [free_of]).
  rewrite free_of_string_of_Z by now right.
  rewrite (free_of_py_format_f newline 8 hours sh) by (auto; now right).
  rewrite (free_of_py_format_f newline 2 acc sa) by (auto; now right).
  reflexivity.
Qed.

Lemma append_all_rows (float_repr : Q -> string) (outputs : list (dict pyval)) :
  forall log log',
    forallb int_epoch outputs = true ->
    TSVLogger_append_all float_repr log outputs = Ok log' ->
    exists rows,
      log' = log ++ rows
      /\ List.length rows = List.length outputs
      /\ forallb tsv_row rows = true.
Proof.
  induction outputs as [|o rest IH]; intros log log' Hint Hrun.
  - cbn in Hrun. injection Hrun as <-. exists []. rewrite app_nil_r. auto.
  - cbn [forallb] in Hint. apply andb_prop in Hint. destruct Hint as [Ho Hrest].
    cbn [TSVLogger_append_all] in Hrun.
    destruct (TSVLogger_append float_repr log o) as [log1|] eqn:E1;
      [|discriminate].
    cbn [bind] in Hrun.
    destruct (append_adds_row float_repr log log1 o Ho E1) as [line [-> Hrow]].
    destruct (IH _ _ Hrest Hrun) as [rows [-> [Hlen Hrows]]].
    exists (line :: rows). rewrite <- app_assoc. cbn [app List.length forallb].
    rewrite Hrow, Hrows, Hlen. auto.
Qed.

Lemma concat_rows_split (rows : list string) :
  forall first,
    free_of newline first = true ->
    forallb (free_of newline) rows = true ->
    split_on newline (String.concat (String newline "") (first :: rows))
    = first :: rows.
Proof.
  induction rows as [|r rows IH]; intros first Hf Hrows.
  - cbn [String.concat]. apply split_on_last. exact Hf.
  - cbn [forallb] in Hrows. apply andb_prop in Hrows. destruct Hrows as [Hr Hrows].
    change (String.concat (String newline "") (first :: r :: rows))
      with (first ++ String newline
                       (String.concat (String newline "") (r :: rows)))%string.
    rewrite split_on_field by exact Hf.
    now rewrite IH.
Qed.

Lemma header_is_row : forallb tsv_row TSVLogger_init = true.
Proof. reflexivity. Qed.

(** X5. After a run that appends one record per epoch, each with an
    integer epoch, the log is the header followed by one line per record,
    and the header and every line have exactly three tab-separated
    fields and no line break. *)
Theorem tsv_log_after_run (float_repr : Q -> string)
  (outputs : list (dict pyval)) (log : list string) :
  forallb int_epoch outputs = true ->
  TSVLogger_append_all float_repr TSVLogger_init outputs = Ok log ->
  exists rows,
    log = TSVLogger_init ++ rows
    /\ List.length rows = List.length outputs
    /\ forallb tsv_row log = true.
Proof.
  intros Hint Hrun.
  destruct (append_all_rows float_repr outputs _ _ Hint Hrun)
    as [rows [-> [Hlen Hrows]]].
  exists rows. split; [reflexivity|]. split; [exact Hlen|].
  rewrite forallb_app, header_is_row, Hrows. reflexivity.
Qed.

(** X6. The text written to the log file splits at the line breaks into
    the lines of the log again: the header and one line per epoch. *)
Theorem tsv_str_lines (float_repr : Q -> string)
  (outputs : list (dict pyval)) (log : list string) :
  forallb int_epoch outputs = true ->
  TSVLogger_append_all float_repr TSVLogger_init outputs = Ok log ->
  split_on newline (TSVLogger_str log) = log
  /\ List.length (split_on newline (TSVLogger_str log))
     = S (List.length outputs).
Proof.
  intros Hint Hrun.
  destruct (append_all_rows float_repr outputs _ _ Hint Hrun)
    as [rows [-> [Hlen Hrows]]].
  assert (Hsplit : split_on newline (TSVLogger_str (TSVLogger_init ++ rows))
                   = TSVLogger_init ++ rows).
  { unfold TSVLogger_str, TSVLogger_init. cbn [app].
    apply concat_rows_split; [reflexivity|].
    clear -Hrows. induction rows as [|r rows IH]; [reflexivity|].
    cbn [forallb] in *. apply andb_prop in Hrows. destruct Hrows as [Hr Hrows].
    unfold tsv_row in Hr. apply andb_prop in Hr. destruct Hr as [_ Hr].
    now rewrite Hr, IH. }
  split; [exact Hsplit|].
  rewrite Hsplit. unfold TSVLogger_init. cbn [app List.length].
  now rewrite Hlen.
Qed.

Lemma tsv_log_after_run_witness :
  exists rows,
    [ "epoch" ++ String tab "hours" ++ String tab "top1Accuracy";
      "1" ++ String tab "0.00836111" ++ String tab "41.00";
      "2" ++ String tab "0.01666667" ++ String tab "100.00" ]%string
    = TSVLogger_init ++ rows
    /\ List.length rows = List.length two_epochs
    /\ forallb tsv_row
         [ "epoch" ++ String tab "hours" ++ String tab "top1Accuracy";
           "1" ++ String tab "0.00836111" ++ String tab "41.00";
           "2" ++ String tab "0.01666667" ++ String tab "100.00" ]%string
       = true.
Proof.
  apply (tsv_log_after_run (fun _ => "") two_epochs); reflexivity.
Defined.

Lemma tsv_str_lines_witness :
  let log :=
    [ "epoch" ++ String tab "hours" ++ String tab "top1Accuracy";
      "1" ++ String tab "0.00836111" ++ String tab "41.00";
      "2" ++ String tab "0.01666667" ++ String tab "100.00" ]%string in
  split_on newline (TSVLogger_str log) = log
  /\ List.length (split_on newline (TSVLogger_str log)) = 3%nat.
Proof.
  apply (tsv_str_lines (fun _ => "") two_epochs); reflexivity.
Defined.



(** ** The learning rate over the run *)

Open Scope Q_scope.

Lemma inject_Z_neq_zero (n : Z) : n <> 0%Z -> Qeq_bool (inject_Z n) 0 = false.
Proof.
  intros Hn. destruct (Qeq_bool (inject_Z n) 0) eqn:E; [|reflexivity].
  apply Qeq_bool_iff in E. unfold Qeq in E. simpl in E. lia.
Qed.

Lemma lr_value (N s : Z) (v : Q) :
  N <> 0%Z ->
  lr_schedule (inject_Z s / inject_Z N) = Ok v ->
  lr N s = Ok (v / 512).
Proof.
  intros HN Hv. unfold lr, progress, truediv.
  rewrite inject_Z_neq_zero by exact HN. cbn [bind]. rewrite Hv. reflexivity.
Qed.


(** Linear arithmetic with the divisions by 19 and 512 written as
    products. *)
Ltac qlra :=
  unfold Qdiv in *;
  change (/ 19) with (1 # 19) in *;
  change (/ 512) with (1 # 512) in *;
  lra.

#[local] Instance reference_curve_comp : Proper (Qeq ==> Qeq) reference_curve.
Proof.
  intros x y H. unfold reference_curve.
  rewrite (Qleb_comp x y H 5 5 (Qeq_refl 5)).
  destruct (Qle_bool y 5); rewrite H; reflexivity.
Qed.

Lemma reference_curve_bounds (x : Q) :
  0 <= x <= 24 -> 0 <= reference_curve x <= 2 # 5.
Proof.
  intros [H0 H24]. unfold reference_curve.
  destruct (Qle_bool x 5) eqn:E.
  - apply Qle_bool_iff in E. split; qlra.
  - assert (H5 : 5 < x).
    { apply Qnot_le_lt. intros H. apply Qle_bool_iff in H. congruence. }
    split; qlra.
Qed.

Lemma reference_curve_warm_up (x x' : Q) :
  x <= x' -> x' <= 5 -> reference_curve x <= reference_curve x'.
Proof.
  intros Hxx' H5. unfold reference_curve.
  assert (E : Qle_bool x 5 = true) by (apply Qle_bool_iff; lra).
  assert (E' : Qle_bool x' 5 = true) by (apply Qle_bool_iff; lra).
  rewrite E, E'. qlra.
Qed.

Lemma reference_curve_decay (x x' : Q) :
  5 <= x -> x <= x' -> reference_curve x' <= reference_curve x.
Proof.
  intros H5 Hxx'. unfold reference_curve.
  destruct (Qle_bool x 5) eqn:E; destruct (Qle_bool x' 5) eqn:E';
    try (apply Qle_bool_iff in E); try (apply Qle_bool_iff in E');
    try (assert (5 < x)
           by (apply Qnot_le_lt; intros H; apply Qle_bool_iff in H; congruence));
    try (assert (5 < x')
           by (apply Qnot_le_lt; intros H; apply Qle_bool_iff in H; congruence));
    qlra.
Qed.

Lemma fractional_epoch_mono (N s s' : Z) :
  (0 < N)%Z -> (s <= s')%Z ->
  inject_Z s / inject_Z N <= inject_Z s' / inject_Z N.
Proof.
  intros HN Hs. unfold Qdiv. apply Qmult_le_compat_r.
  - rewrite <- Zle_Qle. exact Hs.
  - apply Qinv_le_0_compat. change (inject_Z 0 <= inject_Z N).
    rewrite <- Zle_Qle. lia.
Qed.

Lemma fractional_epoch_le (N s k : Z) :
  (0 < N)%Z -> (s <= k * N)%Z -> inject_Z s / inject_Z N <= inject_Z k.
Proof.
  intros HN Hs. apply Qle_shift_div_r.
  - change (inject_Z 0 < inject_Z N). rewrite <- Zlt_Qlt. exact HN.
  - rewrite <- inject_Z_mult, <- Zle_Qle. exact Hs.
Qed.

Lemma fractional_epoch_ge (N s k : Z) :
  (0 < N)%Z -> (k * N <= s)%Z -> inject_Z k <= inject_Z s / inject_Z N.
Proof.
  intros HN Hs. apply Qle_shift_div_l.
  - change (inject_Z 0 < inject_Z N). rewrite <- Zlt_Qlt. exact HN.
  - rewrite <- inject_Z_mult, <- Zle_Qle. exact Hs.
Qed.

(** The learning rate at a step of the run, through the curve. *)
Lemma lr_on_run (N s : Z) :
  (0 < N)%Z -> (0 <= s <= epochs * N)%Z ->
  exists v,
    lr N s = Ok v
    /\ v == reference_curve (inject_Z s / inject_Z N) / 512.
Proof.
  intros HN Hs.
  destruct (lr_schedule_total (inject_Z s / inject_Z N)) as [v Hv].
  exists (v / 512). split; [apply lr_value; [lia|exact Hv]|].
  rewrite (lr_schedule_on_span _ v (fractional_epoch_bounds N s HN Hs) Hv).
  reflexivity.
Qed.

(** X10. At every step of the 24 epochs the learning rate lies between 0
    and 0.4 / 512; it is 0 at step 0 and at the last step, and 0.4 / 512
    at the end of epoch 5.  (The schedule is the interpolation through
    the control points of [main].) *)
Theorem lr_bounds (N s : Z) :
  (0 < N)%Z -> (0 <= s <= epochs * N)%Z ->
  (exists v, lr N s = Ok v /\ 0 <= v <= (2 # 5) / 512)
  /\ (exists v, lr N 0 = Ok v /\ v == 0)
  /\ (exists v, lr N (5 * N) = Ok v /\ v == (2 # 5) / 512)
  /\ (exists v, lr N (epochs * N) = Ok v /\ v == 0).
Proof.
  intros HN Hs. unfold epochs in *.
  assert (Hx : forall k, (0 <= k <= 24)%Z ->
                 inject_Z (k * N) / inject_Z N == inject_Z k).
  { intros k _. rewrite inject_Z_mult. field.
    intros H. unfold Qeq in H. simpl in H. lia. }
  split; [|split; [|split]].
  - destruct (lr_on_run N s HN Hs) as [v [Hv Hval]].
    exists v. split; [exact Hv|].
    pose proof (reference_curve_bounds _ (fractional_epoch_bounds N s HN Hs))
      as [Hlo Hhi].
    rewrite Hval. split; qlra.
  - destruct (lr_on_run N 0 HN) as [v [Hv Hval]]; [unfold epochs; lia|].
    exists v. split; [exact Hv|].
    change 0%Z with (0 * N)%Z in Hval.
    rewrite Hval, (Hx 0%Z) by lia. reflexivity.
  - destruct (lr_on_run N (5 * N) HN) as [v [Hv Hval]]; [unfold epochs; lia|].
    exists v. split; [exact Hv|]. rewrite Hval, (Hx 5%Z) by lia. reflexivity.
  - destruct (lr_on_run N (24 * N) HN) as [v [Hv Hval]]; [unfold epochs; lia|].
    exists v. split; [exact Hv|]. rewrite Hval, (Hx 24%Z) by lia. reflexivity.
Qed.

Lemma lr_bounds_witness :
  (exists v, lr 97 1000 = Ok v /\ 0 <= v <= (2 # 5) / 512)
  /\ (exists v, lr 97 0 = Ok v /\ v == 0)
  /\ (exists v, lr 97 (5 * 97) = Ok v /\ v == (2 # 5) / 512)
  /\ (exists v, lr 97 (epochs * 97) = Ok v /\ v == 0).
Proof.
  apply (lr_bounds 97 1000); [reflexivity|split; discriminate].
Defined.

(** X11. The learning rate does not decrease from step to step during
    the first 5 epochs and does not increase afterwards, up to the end of
    epoch 24. *)
Theorem lr_warm_up_then_decay (N s s' : Z) :
  (0 < N)%Z -> (0 <= s <= s')%Z -> (s' <= epochs * N)%Z ->
  exists v v',
    lr N s = Ok v /\ lr N s' = Ok v'
    /\ ((s' <= 5 * N)%Z -> v <= v')
    /\ ((5 * N <= s)%Z -> v' <= v).
Proof.
  intros HN [H0 Hss'] Hend.
  destruct (lr_on_run N s HN) as [v [Hv Hval]]; [lia|].
  destruct (lr_on_run N s' HN) as [v' [Hv' Hval']]; [lia|].
  exists v, v'. split; [exact Hv|]. split; [exact Hv'|].
  pose proof (fractional_epoch_mono N s s' HN Hss') as Hmono.
  split; intros H.
  - pose proof (reference_curve_warm_up _ _ Hmono
                  (fractional_epoch_le N s' 5 HN H)) as Hle.
    rewrite Hval, Hval'. qlra.
  - pose proof (reference_curve_decay _ _
                  (fractional_epoch_ge N s 5 HN H) Hmono) as Hle.
    rewrite Hval, Hval'. qlra.
Qed.

Lemma lr_warm_up_then_decay_witness :
  exists v v',
    lr 97 100 = Ok v /\ lr 97 200 = Ok v'
    /\ ((200 <= 5 * 97)%Z -> v <= v')
    /\ ((5 * 97 <= 100)%Z -> v' <= v).
Proof.
  apply (lr_warm_up_then_decay 97 100 200);
    [reflexivity|split; discriminate|discriminate].
Defined.

Close Scope Q_scope.

(** ** Keyword arguments of residual *)

